(** * kube_event_watcher: the event watcher of main.go, embedded and verified

    The program watches the "events" collection of a Kubernetes cluster
    through a client-go informer and forwards every added and every deleted
    event to a DomeOS server with one HTTP POST each.

    The embedding is shallow.  Every function of main.go is a Rocq function
    in a small monad [computation] that records, in order, the library calls the Go
    code makes (the trace) and how the function ends: it returns, it
    panics, the process exits, or the call blocks for good.  What the
    libraries answer (the JSON encoder, the URL parser, the network, the
    cluster) is not decided by main.go; it is read from an environment
    [Env] over which all theorems quantify. *)

From Stdlib Require Import ZArith Ascii String List Bool Lia.
From stdpp Require Import base strings gmap list pretty.

Local Open Scope Z_scope.
Local Open Scope string_scope.
Local Open Scope list_scope.

(** ** Go values shared by all packages *)

(** A Go [error] value, by the message it carries. *)
Definition error := string.

(** A Go result pair [(v, err)]: either the value or a non-nil error. *)
Inductive result (A : Type) : Type :=
| Ok (a : A)
| Err (err : error).
Arguments Ok {A} a.
Arguments Err {A} err.

(** How a call ends. *)
Inductive outcome (A : Type) : Type :=
| Returned (a : A)          (* normal return *)
| Panicked (msg : string)   (* run-time panic *)
| Exited (code : Z)         (* os.Exit *)
| Blocked.                  (* the call never returns *)
Arguments Returned {A} a.
Arguments Panicked {A} msg.
Arguments Exited {A} code.
Arguments Blocked {A}.

(** ** package time

    A [Duration] counts nanoseconds in an int64; the constants are the
    package's. *)
Module time.

Definition Duration := Z.   (* int64 nanoseconds *)
Definition Nanosecond : Duration := 1.
Definition Microsecond : Duration := 1000 * Nanosecond.
Definition Millisecond : Duration := 1000 * Microsecond.
Definition Second : Duration := 1000 * Millisecond.
Definition Minute : Duration := 60 * Second.

End time.

(** ** package encoding/json: the documents it writes

    A document is kept as its tree; the text [json.Marshal] returns spells
    this tree without white space. *)
Module json.

#[local] Unset Elimination Schemes.
Inductive value : Type :=
| Null
| Bool (b : bool)
| Number (n : Z)
| String (s : string)
| Array (items : list value)
| Object (fields : list (string * value)).
#[local] Set Elimination Schemes.

End json.

(** ** package net/http *)
Module http.

Record URL := { Scheme : string; Host : string; Path : string }.

(** [Header] is Go's [map[string][]string]. The body of a request is kept
    as the JSON document whose text [bytes.NewReader] would hand out. *)
Record Request := {
  Method : string;
  Url : URL;
  Header : gmap string (list string);
  Body : json.value
}.

(** [Header.Set(key, value)]: the entry of [key] becomes the one-element
    slice [value]. The key written in main.go is already in canonical MIME
    form, so it is stored as it is. *)
Definition Header_Set (r : Request) (key value : string) : Request :=
  {| Method := Method r; Url := Url r;
     Header := <[key := [value]]> (Header r); Body := Body r |}.

(** A response body, by what reading it to the end yields. *)
Record ReadCloser := { contents : result string }.

Record Response := { StatusCode : Z; Status : string; RespBody : ReadCloser }.

(** [validMethod]: a method is a non-empty token (RFC 7230): letters,
    digits and the marks below. *)
Definition isTokenChar (c : ascii) : bool :=
  let n := nat_of_ascii c in
  (Nat.leb 48 n && Nat.leb n 57) || (Nat.leb 65 n && Nat.leb n 90) ||
  (Nat.leb 97 n && Nat.leb n 122) ||
  existsb (Ascii.eqb c) (list_ascii_of_string "!#$%&'*+-.^_`|~").

Fixpoint all_chars (p : ascii -> bool) (s : string) : bool :=
  match s with
  | EmptyString => true
  | String c s => p c && all_chars p s
  end.

Definition validMethod (method : string) : bool :=
  negb (String.eqb method "") && all_chars isTokenChar method.

(** [%q] on a text without special characters. *)
Definition quote (s : string) : string := String "034" (s +:+ String "034" "").

End http.

(** ** package k8s.io/client-go/rest *)
Module rest.

Record TLSClientConfig := { Insecure : bool; CAFile : string }.

Record Config := {
  Host : string;
  BearerToken : string;
  TLS : TLSClientConfig
}.

End rest.

(** A clientset, by the configuration it was built from. *)
Record Clientset := { config : rest.Config }.

(** ** The flag variables of main.go *)
Record Flags := {
  inCluster : bool;
  apiserver : string;
  token : string;
  kubeconfig : string;
  help : bool;
  port : Z;
  clusterId : Z;
  domeosServer : string
}.

(** The defaults given to [flags.Bool], [flags.String] and [flags.Int]. *)
Definition default_flags : Flags :=
  {| inCluster := true; apiserver := ""; token := ""; kubeconfig := "./config";
     help := false; port := 80; clusterId := 0; domeosServer := "" |}.

(** ** package k8s.io/client-go/tools/cache *)

(** The methods of [eventController], as method values: the ones of type
    [func(obj interface{})] and the one of type [func(old, cur interface{})]. *)
Inductive method1 := ec_addEvent | ec_deleteEvent.
Inductive method2 := ec_updateEvent.

Record ResourceEventHandlerFuncs := {
  AddFunc : option method1;
  UpdateFunc : option method2;
  DeleteFunc : option method1
}.

Record ListWatch := {
  client : Clientset;
  resource : string;
  namespace : string;
  fieldSelector : string
}.

Record Informer := {
  lw : ListWatch;
  objType : string;
  resync : time.Duration;
  h : ResourceEventHandlerFuncs
}.

Definition NewListWatchFromClient (c : Clientset) (resource namespace fieldSelector : string)
  : ListWatch :=
  {| client := c; resource := resource; namespace := namespace;
     fieldSelector := fieldSelector |}.

Definition NewInformer (lw : ListWatch) (objType : string) (resyncPeriod : time.Duration)
  (h : ResourceEventHandlerFuncs) : Informer :=
  {| lw := lw; objType := objType; resync := resyncPeriod; h := h |}.

(** [v1.NamespaceAll] and the selector [fields.Everything()]. *)
Definition NamespaceAll : string := "".
Definition fields_Everything : string := "".

(** main.go, line 40. *)
Definition resyncPeriod : time.Duration := 5 * time.Minute.

(** ** The data of main.go that carries a [v1.Event]

    [v1.Event] is declared in k8s.io/api and is not part of the sources:
    it is the parameter [Event] of everything below. *)

(** main.go, lines 216-224. *)
Record DomeosEvent (Event : Type) := {
  K8sEvent : Event;        (* json:"k8sEvent" *)
  ClusterId : Z;           (* json:"clusterId" *)
  ClusterApi : string;     (* json:"clusterApi" *)
  Type_ : string           (* json:"eventType" *)
}.
Arguments K8sEvent {Event} d.
Arguments ClusterId {Event} d.
Arguments ClusterApi {Event} d.
Arguments Type_ {Event} d.

(** A value of type [interface{}] as the handlers receive it: the nil
    interface, a value of dynamic type [*v1.Event] (the pointer itself may
    be nil), or a value of any other dynamic type, by the name of that type
    (client-go hands [cache.DeletedFinalStateUnknown] to a delete handler). *)
Inductive object (Event : Type) : Type :=
| nil_interface
| ptr_Event (p : option Event)
| other (dynamic_type : string).
Arguments nil_interface {Event}.
Arguments ptr_Event {Event} p.
Arguments other {Event} dynamic_type.

(** What the informer hands to its handlers. *)
Inductive notification (Event : Type) : Type :=
| Added (obj : object Event)
| Updated (old cur : object Event)
| Deleted (obj : object Event).
Arguments Added {Event} obj.
Arguments Updated {Event} old cur.
Arguments Deleted {Event} obj.

(** One library call, as the trace records it. *)
Inductive call (Event : Type) : Type :=
| Println (args : list string)                        (* log.Println *)
| Printf (format : string) (args : list string)       (* log.Printf *)
| Fatal (args : list string)                          (* log.Fatal *)
| Parse (args : list string)                          (* flags.Parse *)
| Usage                                               (* flags.Usage *)
| StartReaper                                         (* proc.StartReaper *)
| InClusterConfig                                     (* restclient.InClusterConfig *)
| ClientConfig                                        (* clientcmd...ClientConfig *)
| NewForConfig (c : rest.Config)                      (* clientset.NewForConfig *)
| ServerVersion (c : Clientset)                       (* Discovery().ServerVersion *)
| Marshal (de : DomeosEvent Event)                    (* json.Marshal *)
| NewRequest (method url : string) (body : json.value) (* http.NewRequest *)
| Do (r : http.Request)                               (* http.DefaultClient.Do *)
| ReadAll (b : http.ReadCloser)                       (* ioutil.ReadAll *)
| Close (b : http.ReadCloser)                         (* resp.Body.Close *)
| GoRun (inf : Informer)                              (* go einf.Run(wait.NeverStop) *)
| HandleFunc (pattern : string)                       (* http.HandleFunc *)
| ListenAndServe (addr : string).                     (* http.ListenAndServe *)
Arguments Println {Event} args.
Arguments Printf {Event} format args.
Arguments Fatal {Event} args.
Arguments Parse {Event} args.
Arguments Usage {Event}.
Arguments StartReaper {Event}.
Arguments InClusterConfig {Event}.
Arguments ClientConfig {Event}.
Arguments NewForConfig {Event} c.
Arguments ServerVersion {Event} c.
Arguments Marshal {Event} de.
Arguments NewRequest {Event} method url body.
Arguments Do {Event} r.
Arguments ReadAll {Event} b.
Arguments Close {Event} b.
Arguments GoRun {Event} inf.
Arguments HandleFunc {Event} pattern.
Arguments ListenAndServe {Event} addr.

(** What the libraries and the outside world answer. [round_trip k r] is
    the answer to the request [r] when [k] round trips were made before it,
    so the network may answer the same request differently each time. *)
Record Env (Event : Type) := {
  parse : list string -> result Flags;                 (* pflag *)
  marshal_Event : Event -> result json.value;          (* encoding/json on v1.Event *)
  url_Parse : string -> result http.URL;               (* net/url *)
  round_trip : nat -> http.Request -> result http.Response;
  in_cluster : result rest.Config;
  client_config : result rest.Config;
  new_client : rest.Config -> result Clientset;
  server_version : Clientset -> result string;
  serve : string -> option error                       (* None: serves for good *)
}.
Arguments parse {Event} e.
Arguments marshal_Event {Event} e.
Arguments url_Parse {Event} e.
Arguments round_trip {Event} e.
Arguments in_cluster {Event} e.
Arguments client_config {Event} e.
Arguments new_client {Event} e.
Arguments server_version {Event} e.
Arguments serve {Event} e.

(** The result of running a computation: the calls it made, in order, the
    number of round trips made so far, and how it ended. *)
Record run (Event A : Type) := {
  calls : list (call Event);
  trips : nat;
  final : outcome A
}.
Arguments calls {Event A} r.
Arguments trips {Event A} r.
Arguments final {Event A} r.

(** A computation, run from a given number of earlier round trips. *)
Definition computation (Event A : Type) : Type := nat -> run Event A.

Definition ret {Event A : Type} (a : A) : computation Event A :=
  fun n => {| calls := []; trips := n; final := Returned a |}.

(** [r] with the calls [cs] made before it. *)
Definition after {Event A : Type} (cs : list (call Event)) (r : run Event A) : run Event A :=
  match r with
  | {| calls := cs'; trips := t; final := o |} =>
      {| calls := cs ++ cs'; trips := t; final := o |}
  end.

(** Sequencing: a panic, an exit or a blocked call ends the computation. *)
Definition bind {Event A B : Type} (m : computation Event A)
  (k : A -> computation Event B) : computation Event B :=
  fun n =>
    match m n with
    | {| calls := cs; trips := t; final := o |} =>
        match o with
        | Returned a => after cs (k a t)
        | Panicked msg => {| calls := cs; trips := t; final := Panicked msg |}
        | Exited code => {| calls := cs; trips := t; final := Exited code |}
        | Blocked => {| calls := cs; trips := t; final := Blocked |}
        end
    end.

Declare Scope go_scope.
Delimit Scope go_scope with go.
Notation "x <- m ;; k" := (bind m (fun x => k))
  (at level 100, m at next level, right associativity) : go_scope.
Notation "m ;; k" := (bind m (fun _ => k))
  (at level 100, k at level 200, right associativity) : go_scope.
Local Open Scope go_scope.

(** A library call that returns [a]. *)
Definition perform {Event A : Type} (c : call Event) (a : A) : computation Event A :=
  fun n => {| calls := [c]; trips := n; final := Returned a |}.

(** A library call that ends the computation. *)
Definition halt {Event A : Type} (cs : list (call Event)) (o : outcome A)
  : computation Event A :=
  fun n => {| calls := cs; trips := n; final := o |}.

(** ** main.go *)
Section Program.

Context {Event : Type}.
Variable env : Env Event.

#[local] Abbreviation M := (computation Event).

(** *** The library calls main.go makes *)

Definition log_Println (args : list string) : M unit := perform (Println args) tt.

Definition log_Printf (format : string) (args : list string) : M unit :=
  perform (Printf format args) tt.

(** [log.Fatal] prints and calls [os.Exit(1)]. *)
Definition log_Fatal {A : Type} (args : list string) : M A :=
  halt [Fatal args] (Exited 1).

Definition os_Exit {A : Type} (code : Z) : M A := halt [] (Exited code).

Definition flags_Parse (args : list string) : M (result Flags) :=
  perform (Parse args) (parse env args).

Definition flags_Usage : M unit := perform Usage tt.

Definition proc_StartReaper : M unit := perform StartReaper tt.

Definition restclient_InClusterConfig : M (result rest.Config) :=
  perform InClusterConfig (in_cluster env).

Definition clientcmd_ClientConfig : M (result rest.Config) :=
  perform ClientConfig (client_config env).

Definition clientset_NewForConfig (c : rest.Config) : M (result Clientset) :=
  perform (NewForConfig c) (new_client env c).

Definition Discovery_ServerVersion (c : Clientset) : M (result string) :=
  perform (ServerVersion c) (server_version env c).

(** [json.Marshal] on a [DomeosEvent] (lines 216-224): an object with the
    fields in the order of the struct, each under the name of its [json]
    tag; none is [omitempty]. An [int] becomes a number and a [string] a
    string. The encoding of the [v1.Event] inside is the library's, and
    its failure is the failure of the whole. *)
Definition encode (de : DomeosEvent Event) : result json.value :=
  match marshal_Event env (K8sEvent de) with
  | Err err => Err err
  | Ok k8sEvent =>
      Ok (json.Object [("k8sEvent", k8sEvent);
                       ("clusterId", json.Number (ClusterId de));
                       ("clusterApi", json.String (ClusterApi de));
                       ("eventType", json.String (Type_ de))])
  end.

Definition json_Marshal (de : DomeosEvent Event) : M (result json.value) :=
  perform (Marshal de) (encode de).

(** [http.NewRequest], with the background context: an empty method means
    GET, the method is checked, the address parsed, and the request comes
    back with an empty header. *)
Definition build (method url : string) (body : json.value) : result http.Request :=
  let method := if String.eqb method "" then "GET" else method in
  if http.validMethod method then
    match url_Parse env url with
    | Err err => Err err
    | Ok u => Ok {| http.Method := method; http.Url := u;
                    http.Header := ∅; http.Body := body |}
    end
  else Err ("net/http: invalid method " +:+ http.quote method).

Definition http_NewRequest (method url : string) (body : json.value)
  : M (result http.Request) :=
  perform (NewRequest method url body) (build method url body).

(** [http.DefaultClient.Do]: one round trip. *)
Definition Client_Do (r : http.Request) : M (result http.Response) :=
  fun n => {| calls := [Do r]; trips := S n; final := Returned (round_trip env n r) |}.

Definition ioutil_ReadAll (b : http.ReadCloser) : M (result string) :=
  perform (ReadAll b) (http.contents b).

Definition Body_Close (b : http.ReadCloser) : M unit := perform (Close b) tt.

(** [go einf.Run(wait.NeverStop)]: the informer is started on a goroutine of
    its own and the caller goes on. *)
Definition go_Run (einf : Informer) : M unit := perform (GoRun einf) tt.

Definition http_HandleFunc (pattern : string) : M unit := perform (HandleFunc pattern) tt.

(** [http.ListenAndServe] returns only with an error. *)
Definition http_ListenAndServe (addr : string) : M error :=
  match serve env addr with
  | Some err => perform (ListenAndServe addr) err
  | None => halt [ListenAndServe addr] Blocked
  end.

(** *** reportEvent (lines 226-251) *)
Definition reportEvent (url : string) (de : DomeosEvent Event) : M unit :=
  eventstr <- json_Marshal de ;;
  match eventstr with
  | Err err => log_Println ["marshal DomeosEvent error: "; err]
  | Ok eventstr =>
      request <- http_NewRequest "POST" url eventstr ;;
      match request with
      | Err err => log_Println ["create request error: %v"; err]
      | Ok request =>
          let request :=
            http.Header_Set request "Content-Type" "application/json;charset=UTF-8" in
          resp <- Client_Do request ;;
          match resp with
          | Err err => log_Println ["get response error, %v"; err]
          | Ok resp =>
              body <- ioutil_ReadAll (http.RespBody resp) ;;
              match body with
              | Err err => log_Println ["http.Do failed,[err=%s][url=%s]"; err; url]
              | Ok _ => ret tt
              end ;;
              (* defer resp.Body.Close() *)
              Body_Close (http.RespBody resp)
          end
      end
  end.

(** *** The handlers of eventController (lines 168-214) *)

(** [obj != nil] on an interface value. *)
Definition not_nil (obj : object Event) : bool :=
  match obj with
  | nil_interface => false
  | _ => true
  end.

(** [event, ok := obj.( *v1.Event)]. *)
Definition assert_ptr_Event (obj : object Event) : option Event * bool :=
  match obj with
  | ptr_Event p => (p, true)
  | _ => (None, false)
  end.

(** [*event]: dereferencing the nil pointer panics. *)
Definition deref {A : Type} (p : option A) : M A :=
  match p with
  | Some a => ret a
  | None => halt [] (Panicked "invalid memory address or nil pointer dereference")
  end.

Section Flagged.

(** The flag variables are package-level: every function below reads them
    as [flags.Parse] left them. *)
Variable fl : Flags.

Definition addEvent (obj : object Event) : M unit :=
  if not_nil obj then
    let '(event, ok) := assert_ptr_Event obj in
    if negb ok then ret tt
    else
      e <- deref event ;;
      reportEvent (domeosServer fl)
        {| K8sEvent := e; ClusterId := clusterId fl;
           ClusterApi := apiserver fl; Type_ := "add" |}
  else ret tt.

Definition updateEvent (old cur : object Event) : M unit :=
  if not_nil cur then
    let '(event, ok) := assert_ptr_Event cur in
    if negb ok then ret tt
    else
      e <- deref event ;;
      reportEvent (domeosServer fl)
        {| K8sEvent := e; ClusterId := clusterId fl;
           ClusterApi := apiserver fl; Type_ := "update" |}
  else ret tt.

Definition deleteEvent (obj : object Event) : M unit :=
  if not_nil obj then
    let '(event, ok) := assert_ptr_Event obj in
    if negb ok then ret tt
    else
      e <- deref event ;;
      reportEvent (domeosServer fl)
        {| K8sEvent := e; ClusterId := clusterId fl;
           ClusterApi := apiserver fl; Type_ := "delete" |}
  else ret tt.

(** *** The dispatcher *)

(** A handler call the dispatcher makes. *)
Inductive invocation : Type :=
| Invoke1 (f : method1) (obj : object Event)
| Invoke2 (f : method2) (old cur : object Event).

(** Modelled from the spec: the Event Dispatcher of section 4.2, which is
    client-go's [ResourceEventHandlerFuncs] (its methods [OnAdd], [OnUpdate]
    and [OnDelete] are not part of the sources). A notification becomes a
    call of the handler registered for its kind; a kind with no handler
    registered becomes no call. *)
Definition invoked (hs : ResourceEventHandlerFuncs) (n : notification Event)
  : option invocation :=
  match n with
  | Added obj => option_map (fun f => Invoke1 f obj) (AddFunc hs)
  | Updated old cur => option_map (fun f => Invoke2 f old cur) (UpdateFunc hs)
  | Deleted obj => option_map (fun f => Invoke1 f obj) (DeleteFunc hs)
  end.

(** Calling a method value of [eventController]. *)
Definition invoke (i : invocation) : M unit :=
  match i with
  | Invoke1 ec_addEvent obj => addEvent obj
  | Invoke1 ec_deleteEvent obj => deleteEvent obj
  | Invoke2 ec_updateEvent old cur => updateEvent old cur
  end.

Definition dispatch (hs : ResourceEventHandlerFuncs) (n : notification Event) : M unit :=
  match invoked hs n with
  | Some i => invoke i
  | None => ret tt
  end.

(** Modelled from the spec: the delivery of section 5, which is client-go's
    (not part of the sources). The informer's goroutine hands the
    notifications [ns] to the dispatcher one after the other, and each
    dispatch is finished before the next begins. *)
Fixpoint deliver (hs : ResourceEventHandlerFuncs) (ns : list (notification Event))
  : M unit :=
  match ns with
  | [] => ret tt
  | n :: ns => dispatch hs n ;; deliver hs ns
  end.

(** *** initializeMetricCollection (lines 255-269) *)

Definition registered : ResourceEventHandlerFuncs :=
  {| AddFunc := Some ec_addEvent; UpdateFunc := None; DeleteFunc := Some ec_deleteEvent |}.

Definition event_informer (kubeClient : Clientset) : Informer :=
  let elw := NewListWatchFromClient kubeClient "events" NamespaceAll fields_Everything in
  NewInformer elw "*v1.Event" resyncPeriod registered.

Definition initializeMetricCollection (kubeClient : Clientset) : M unit :=
  go_Run (event_informer kubeClient).

(** *** createKubeClient (lines 97-154) *)

Definition show_bool (b : bool) : string := if b then "true" else "false".

Definition createKubeClient : M (result Clientset) :=
  log_Println ["Creating client"] ;;
  made <-
    (if inCluster fl then
       config <- restclient_InClusterConfig ;;
       match config with
       | Err err => ret (Err err)
       | Ok config =>
           let config :=
             if negb (String.eqb (apiserver fl) "") then
               {| rest.Host := apiserver fl;
                  rest.BearerToken := rest.BearerToken config;
                  rest.TLS := rest.TLS config |}
             else config in
           let tokenPresent := Nat.ltb 0 (String.length (rest.BearerToken config)) in
           log_Println ["service account token present: %v"; show_bool tokenPresent] ;;
           log_Println ["service host: %s"; rest.Host config] ;;
           clientset_NewForConfig config
       end
     else
       config <- clientcmd_ClientConfig ;;
       match config with
       | Err err => ret (Err err)
       | Ok config =>
           let config :=
             {| rest.Host := apiserver fl;
                rest.BearerToken := rest.BearerToken config;
                rest.TLS := rest.TLS config |} in
           let config :=
             if negb (String.eqb (token fl) "") then
               {| rest.Host := rest.Host config;
                  rest.BearerToken := token fl;
                  rest.TLS := {| rest.Insecure := true; rest.CAFile := "" |} |}
             else config in
           clientset_NewForConfig config
       end) ;;
  match made with
  | Err err => ret (Err err)
  | Ok kubeClient =>
      log_Println ["testing communication with server"] ;;
      serverVersion <- Discovery_ServerVersion kubeClient ;;
      match serverVersion with
      | Err err => ret (Err ("ERROR communicating with apiserver: " +:+ err))
      | Ok serverVersion =>
          log_Printf "serverVersion: %v" [serverVersion] ;;
          ret (Ok kubeClient)
      end
  end.

(** *** metricsServer (lines 156-166) *)
Definition metricsServer : M unit :=
  let listenAddress := ":" +:+ pretty (port fl) in
  log_Println ["Starting metrics server: %s"; listenAddress] ;;
  http_HandleFunc "/" ;;
  err <- http_ListenAndServe listenAddress ;;
  log_Fatal [err].

End Flagged.

(** *** main (lines 63-95) *)

(** The message of line 80. *)
Definition apiserver_not_set : string :=
  "--apiserver not set and --in-cluster is false; apiserver must be set to a valid URL".

Definition main (args : list string) : M unit :=
  parsed <- flags_Parse args ;;
  match parsed with
  | Err err => log_Fatal ["Error: %v"; err]
  | Ok fl =>
      (if help fl then flags_Usage ;; os_Exit 0 else ret tt) ;;
      (if String.eqb (apiserver fl) "" && negb (inCluster fl) then
         log_Fatal [apiserver_not_set]
       else ret tt) ;;
      log_Println ["apiServer set to: %v"; apiserver fl] ;;
      log_Println ["token set to: %v"; token fl] ;;
      proc_StartReaper ;;
      made <- createKubeClient fl ;;
      match made with
      | Err err => log_Fatal ["Failed to create client: "; err]
      | Ok kubeClient =>
          initializeMetricCollection kubeClient ;;
          metricsServer fl
      end
  end.

End Program.

(** ** Reading a trace *)

(** The requests handed to the HTTP client, in order. *)
Definition requests {Event : Type} (cs : list (call Event)) : list http.Request :=
  omap (fun c => match c with Do r => Some r | _ => None end) cs.

(** The requests built with [http.NewRequest], by their bodies. *)
Definition constructed {Event : Type} (cs : list (call Event)) : list json.value :=
  omap (fun c => match c with NewRequest _ _ body => Some body | _ => None end) cs.

(** The envelopes handed to [reportEvent]: its first statement passes its
    envelope to [json.Marshal], and nothing else in main.go calls it. *)
Definition reported {Event : Type} (cs : list (call Event)) : list (DomeosEvent Event) :=
  omap (fun c => match c with Marshal de => Some de | _ => None end) cs.

(** The informers started on a goroutine. *)
Definition started {Event : Type} (cs : list (call Event)) : list Informer :=
  omap (fun c => match c with GoRun inf => Some inf | _ => None end) cs.

(** The calls that build or use the client of the cluster. *)
Definition touches_cluster {Event : Type} (c : call Event) : bool :=
  match c with
  | InClusterConfig | ClientConfig | NewForConfig _ | ServerVersion _ | GoRun _ => true
  | _ => false
  end.

(** The calls of steady-state operation: the informer and the listener. *)
Definition steady_state {Event : Type} (c : call Event) : bool :=
  match c with
  | GoRun _ | HandleFunc _ | ListenAndServe _ => true
  | _ => false
  end.

(** A diagnostic of a fatal error: a [log.Fatal] message, exit status 1. *)
Definition fatal_diagnostic {Event A : Type} (r : run Event A) : Prop :=
  (exists args, last (calls r) = Some (Fatal args)) /\ final r = Exited 1.

(** The header the DomeOS server is sent. *)
Definition content_type : gmap string (list string) :=
  {["Content-Type" := ["application/json;charset=UTF-8"]]}.

(** The document of an envelope whose event encodes as [k8sEvent]. *)
Definition envelope {Event : Type} (k8sEvent : json.value) (de : DomeosEvent Event)
  : json.value :=
  json.Object [("k8sEvent", k8sEvent);
               ("clusterId", json.Number (ClusterId de));
               ("clusterApi", json.String (ClusterApi de));
               ("eventType", json.String (Type_ de))].

(** Startup on [args] ends in a fatal diagnostic, before the cluster is
    touched and before steady state, whenever the flags parsed from [args]
    leave the apiserver empty and in-cluster false. *)
Definition missing_apiserver_is_fatal {Event : Type} (env : Env Event)
  (args : list string) (n : nat) : Prop :=
  forall fl, parse env args = Ok fl -> apiserver fl = "" -> inCluster fl = false ->
    fatal_diagnostic (main env args n) /\
    forall c, c ∈ calls (main env args n) ->
      touches_cluster c = false /\ steady_state c = false.

(** [reportEvent], given [de], issues an HTTP POST with the content type
    of the DomeOS server and the document of [de] as its body. *)
Definition posts_the_envelope {Event : Type} (env : Env Event) (url : string)
  (de : DomeosEvent Event) (n : nat) : Prop :=
  exists r, r ∈ requests (calls (reportEvent env url de n)) /\
    http.Method r = "POST" /\
    http.Header r = content_type /\
    exists k8sEvent, http.Body r = envelope k8sEvent de.

(** The dynamic type of an interface value is [*v1.Event]. *)
Definition is_ptr_Event {Event : Type} (obj : object Event) : bool :=
  match obj with
  | ptr_Event _ => true
  | _ => false
  end.

(** The names of the fields of a document. *)
Definition field_names (doc : json.value) : list string :=
  match doc with
  | json.Object fields => map fst fields
  | _ => []
  end.

(** Two answers of the network that differ at most in the status of the
    response. *)
Definition same_apart_from_status (a b : result http.Response) : Prop :=
  match a, b with
  | Ok ra, Ok rb => http.RespBody ra = http.RespBody rb
  | Err ea, Err eb => ea = eb
  | _, _ => False
  end.

(** [env] with the network replaced. *)
Definition with_network {Event : Type} (env : Env Event)
  (net : nat -> http.Request -> result http.Response) : Env Event :=
  {| parse := parse env; marshal_Event := marshal_Event env; url_Parse := url_Parse env;
     round_trip := net; in_cluster := in_cluster env; client_config := client_config env;
     new_client := new_client env; server_version := server_version env;
     serve := serve env |}.

(** [env] with another encoder of events. *)
Definition with_encoder {Event : Type} (env : Env Event)
  (enc : Event -> result json.value) : Env Event :=
  {| parse := parse env; marshal_Event := enc; url_Parse := url_Parse env;
     round_trip := round_trip env; in_cluster := in_cluster env;
     client_config := client_config env; new_client := new_client env;
     server_version := server_version env; serve := serve env |}.

(** ** A world to run the program in

    Events are kept by their message. The flag parser knows the three
    flags the examples use; the URL parser takes [http://] addresses and
    the empty one; the DomeOS server answers 200 to every request. *)
Module Sample.

Definition set_flag (fl : Flags) (arg : string) : Flags :=
  if String.eqb arg "-h" then
    {| inCluster := inCluster fl; apiserver := apiserver fl; token := token fl;
       kubeconfig := kubeconfig fl; help := true; port := port fl;
       clusterId := clusterId fl; domeosServer := domeosServer fl |}
  else if String.eqb arg "--in-cluster=false" then
    {| inCluster := false; apiserver := apiserver fl; token := token fl;
       kubeconfig := kubeconfig fl; help := help fl; port := port fl;
       clusterId := clusterId fl; domeosServer := domeosServer fl |}
  else if String.prefix "--domeosServer=" arg then
    {| inCluster := inCluster fl; apiserver := apiserver fl; token := token fl;
       kubeconfig := kubeconfig fl; help := help fl; port := port fl;
       clusterId := clusterId fl;
       domeosServer := String.substring 15 (String.length arg - 15) arg |}
  else fl.

Definition parse_args (args : list string) : result Flags :=
  Ok (fold_left set_flag args default_flags).

Definition parse_url (url : string) : result http.URL :=
  if String.prefix "http://" url then
    let rest := String.substring 7 (String.length url - 7) url in
    match String.index 0 "/" rest with
    | Some i =>
        Ok {| http.Scheme := "http"; http.Host := String.substring 0 i rest;
              http.Path := String.substring i (String.length rest - i) rest |}
    | None => Ok {| http.Scheme := "http"; http.Host := rest; http.Path := "" |}
    end
  else if String.eqb url "" then
    Ok {| http.Scheme := ""; http.Host := ""; http.Path := "" |}
  else Err "first path segment in URL cannot contain colon".

Definition answer (code : Z) (status : string) : result http.Response :=
  Ok {| http.StatusCode := code; http.Status := status;
        http.RespBody := {| http.contents := Ok "" |} |}.

Definition cluster_config : rest.Config :=
  {| rest.Host := "https://10.0.0.1:443"; rest.BearerToken := "sa-token";
     rest.TLS := {| rest.Insecure := false; rest.CAFile := "ca.crt" |} |}.

Definition world : Env string :=
  {| parse := parse_args;
     marshal_Event := fun message => Ok (json.Object [("message", json.String message)]);
     url_Parse := parse_url;
     round_trip := fun _ _ => answer 200 "200 OK";
     in_cluster := Ok cluster_config;
     client_config := Ok cluster_config;
     new_client := fun c => Ok {| config := c |};
     server_version := fun _ => Ok "v1.14.0";
     serve := fun _ => None |}.

Definition flags : Flags :=
  {| inCluster := true; apiserver := "https://10.0.0.1:443"; token := "";
     kubeconfig := "./config"; help := false; port := 80; clusterId := 7;
     domeosServer := "http://domeos.example/api/k8sevent" |}.

Definition event : DomeosEvent string :=
  {| K8sEvent := "Pulled image"; ClusterId := 7;
     ClusterApi := "https://10.0.0.1:443"; Type_ := "add" |}.

Definition destination : string := "http://domeos.example/api/k8sevent".

(** The request that carries [event] to [destination]. *)
Definition request : http.Request :=
  {| http.Method := "POST";
     http.Url := {| http.Scheme := "http"; http.Host := "domeos.example";
                    http.Path := "/api/k8sevent" |};
     http.Header := {["Content-Type" := ["application/json;charset=UTF-8"]]};
     http.Body :=
       json.Object [("k8sEvent", json.Object [("message", json.String "Pulled image")]);
                    ("clusterId", json.Number 7);
                    ("clusterApi", json.String "https://10.0.0.1:443");
                    ("eventType", json.String "add")] |}.

(** An address with no scheme, as in [--domeosServer=10.0.0.1:8080]. *)
Definition bare_address : string := "10.0.0.1:8080".

(** A command line that asks for help and leaves the apiserver unset. *)
Definition help_args : list string := ["kube_event_watcher"; "--in-cluster=false"; "-h"].

(** A command line that leaves the apiserver unset outside the cluster. *)
Definition outside_args : list string := ["kube_event_watcher"; "--in-cluster=false"].

(** A command line for a run inside the cluster. *)
Definition inside_args : list string :=
  ["kube_event_watcher"; "--domeosServer=http://domeos.example/api/k8sevent"].

(** A network that refuses every connection. *)
Definition refused : nat -> http.Request -> result http.Response :=
  fun _ _ => Err "dial tcp: connection refused".

End Sample.

(** ** More to read from a trace *)

(** The lines written to the log: the arguments of each [log.Println] and
    [log.Fatal], the format and the arguments of each [log.Printf]. *)
Definition logged {Event : Type} (cs : list (call Event)) : list (list string) :=
  omap (fun c => match c with
                 | Println args | Fatal args => Some args
                 | Printf format args => Some (format :: args)
                 | _ => None
                 end) cs.

(** The response bodies read to the end, and the ones closed. *)
Definition bodies_read {Event : Type} (cs : list (call Event)) : list http.ReadCloser :=
  omap (fun c => match c with ReadAll b => Some b | _ => None end) cs.

Definition bodies_closed {Event : Type} (cs : list (call Event)) : list http.ReadCloser :=
  omap (fun c => match c with Close b => Some b | _ => None end) cs.

(** The method and the address of each [http.NewRequest]. *)
Definition targets {Event : Type} (cs : list (call Event)) : list (string * string) :=
  omap (fun c => match c with NewRequest method url _ => Some (method, url) | _ => None end)
    cs.

(** The configuration loaders called: [true] for
    [restclient.InClusterConfig], [false] for the kubeconfig one. *)
Definition loaders {Event : Type} (cs : list (call Event)) : list bool :=
  omap (fun c => match c with
                 | InClusterConfig => Some true
                 | ClientConfig => Some false
                 | _ => None
                 end) cs.

(** The configurations handed to [clientset.NewForConfig]. *)
Definition configured {Event : Type} (cs : list (call Event)) : list rest.Config :=
  omap (fun c => match c with NewForConfig c => Some c | _ => None end) cs.

(** The clients whose server version was asked for. *)
Definition tested {Event : Type} (cs : list (call Event)) : list Clientset :=
  omap (fun c => match c with ServerVersion c => Some c | _ => None end) cs.

(** The addresses handed to [http.ListenAndServe], and the patterns handed
    to [http.HandleFunc]. *)
Definition listening {Event : Type} (cs : list (call Event)) : list string :=
  omap (fun c => match c with ListenAndServe addr => Some addr | _ => None end) cs.

Definition handled {Event : Type} (cs : list (call Event)) : list string :=
  omap (fun c => match c with HandleFunc pattern => Some pattern | _ => None end) cs.

(** The calls made before the first informer is started. *)
Fixpoint until_started {Event : Type} (cs : list (call Event)) : list (call Event) :=
  match cs with
  | [] => []
  | GoRun _ :: _ => []
  | c :: cs => c :: until_started cs
  end.


(** The envelope a handler of type [type] makes of [obj]: one for an event
    behind a pointer, none otherwise. *)
Definition envelope_of {Event : Type} (fl : Flags) (type : string) (obj : object Event)
  : list (DomeosEvent Event) :=
  match obj with
  | ptr_Event (Some e) =>
      [{| K8sEvent := e; ClusterId := clusterId fl; ClusterApi := apiserver fl;
          Type_ := type |}]
  | _ => []
  end.

(** The check of line 79 lets the flags pass. *)
Definition apiserver_known (fl : Flags) : bool :=
  negb (String.eqb (apiserver fl) "" && negb (inCluster fl)).

(** [fl] with another kubeconfig path, and with another token. *)
Definition with_kubeconfig (fl : Flags) (path : string) : Flags :=
  {| inCluster := inCluster fl; apiserver := apiserver fl; token := token fl;
     kubeconfig := path; help := help fl; port := port fl;
     clusterId := clusterId fl; domeosServer := domeosServer fl |}.

Definition with_token (fl : Flags) (t : string) : Flags :=
  {| inCluster := inCluster fl; apiserver := apiserver fl; token := t;
     kubeconfig := kubeconfig fl; help := help fl; port := port fl;
     clusterId := clusterId fl; domeosServer := domeosServer fl |}.

(** Two results of [flags.Parse] that differ at most in the kubeconfig
    path. *)
Definition same_apart_from_kubeconfig (a b : result Flags) : Prop :=
  match a, b with
  | Ok f1, Ok f2 =>
      inCluster f1 = inCluster f2 /\ apiserver f1 = apiserver f2 /\
      token f1 = token f2 /\ help f1 = help f2 /\ port f1 = port f2 /\
      clusterId f1 = clusterId f2 /\ domeosServer f1 = domeosServer f2
  | Err e1, Err e2 => e1 = e2
  | _, _ => False
  end.

(** [env] with the flag parser replaced. *)
Definition with_parser {Event : Type} (env : Env Event)
  (p : list string -> result Flags) : Env Event :=
  {| parse := p; marshal_Event := marshal_Event env; url_Parse := url_Parse env;
     round_trip := round_trip env; in_cluster := in_cluster env;
     client_config := client_config env; new_client := new_client env;
     server_version := server_version env; serve := serve env |}.

(** [env] with another answer of the listener. *)
Definition with_listener {Event : Type} (env : Env Event)
  (l : string -> option error) : Env Event :=
  {| parse := parse env; marshal_Event := marshal_Event env; url_Parse := url_Parse env;
     round_trip := round_trip env; in_cluster := in_cluster env;
     client_config := client_config env; new_client := new_client env;
     server_version := server_version env; serve := l |}.

(** [env] with another answer to the version request. *)
Definition with_version {Event : Type} (env : Env Event)
  (v : Clientset -> result string) : Env Event :=
  {| parse := parse env; marshal_Event := marshal_Event env; url_Parse := url_Parse env;
     round_trip := round_trip env; in_cluster := in_cluster env;
     client_config := client_config env; new_client := new_client env;
     server_version := v; serve := serve env |}.

(** What [main] does with the result of [createKubeClient] (lines 89-94). *)
Definition finish {Event : Type} (env : Env Event) (fl : Flags) (made : result Clientset)
  : computation Event unit :=
  match made with
  | Err err => log_Fatal ["Failed to create client: "; err]
  | Ok kubeClient =>
      initializeMetricCollection kubeClient ;; metricsServer env fl
  end.

(** ** More of the sample world *)
Module Scenario.

(** A response whose body breaks off while it is read. *)
Definition cut_short : nat -> http.Request -> result http.Response :=
  fun _ _ =>
    Ok {| http.StatusCode := 200; http.Status := "200 OK";
          http.RespBody := {| http.contents := Err "unexpected EOF" |} |}.

(** A server that answers every request with status 500. *)
Definition failing_server : nat -> http.Request -> result http.Response :=
  fun _ _ => Sample.answer 500 "500 Internal Server Error".

(** Flags for a run outside the cluster, with a token. *)
Definition outside_flags : Flags :=
  {| inCluster := false; apiserver := "https://10.0.0.1:6443"; token := "secret";
     kubeconfig := "./config"; help := false; port := 8080; clusterId := 7;
     domeosServer := Sample.destination |}.

(** The configuration a kubeconfig file gives. *)
Definition kubeconfig_config : rest.Config :=
  {| rest.Host := "https://kube.example:6443"; rest.BearerToken := "file-token";
     rest.TLS := {| rest.Insecure := false; rest.CAFile := "/etc/kube/ca.crt" |} |}.

(** The sample world with that kubeconfig. *)
Definition outside_world : Env string :=
  {| parse := fun _ => Ok outside_flags;
     marshal_Event := marshal_Event Sample.world;
     url_Parse := url_Parse Sample.world;
     round_trip := round_trip Sample.world;
     in_cluster := Err "unable to load in-cluster configuration";
     client_config := Ok kubeconfig_config;
     new_client := new_client Sample.world;
     server_version := server_version Sample.world;
     serve := serve Sample.world |}.

(** An apiserver that cannot be reached. *)
Definition unreachable : Clientset -> result string :=
  fun _ => Err "dial tcp 10.0.0.1:443: i/o timeout".

(** A port that is taken. *)
Definition port_taken : string -> option error :=
  fun _ => Some "listen tcp :80: bind: address already in use".

(** The sample parser with the kubeconfig path replaced afterwards. *)
Definition parse_elsewhere (args : list string) : result Flags :=
  match Sample.parse_args args with
  | Ok fl => Ok (with_kubeconfig fl "/etc/kube/config")
  | Err err => Err err
  end.

End Scenario.

(** ** Properties *)
Section Properties.

Context {Event : Type}.
Implicit Types (env : Env Event) (fl : Flags) (de : DomeosEvent Event).
Implicit Types (obj old cur : object Event) (ns : list (notification Event)).

(** Unfolding one function of main.go down to the calls it makes. *)
Ltac unfold_go :=
  cbv beta iota zeta delta
    [reportEvent addEvent updateEvent deleteEvent deref not_nil assert_ptr_Event negb
     json_Marshal http_NewRequest Client_Do ioutil_ReadAll Body_Close
     log_Println log_Printf log_Fatal os_Exit flags_Parse flags_Usage proc_StartReaper
     restclient_InClusterConfig clientcmd_ClientConfig clientset_NewForConfig
     Discovery_ServerVersion go_Run http_HandleFunc http_ListenAndServe
     bind after perform halt ret calls trips final app].

(** The same for [main] and the functions it calls. *)
Ltac unfold_main :=
  cbv beta iota zeta delta
    [main createKubeClient initializeMetricCollection metricsServer
     reportEvent addEvent updateEvent deleteEvent deref not_nil assert_ptr_Event negb
     json_Marshal http_NewRequest Client_Do ioutil_ReadAll Body_Close
     log_Println log_Printf log_Fatal os_Exit flags_Parse flags_Usage proc_StartReaper
     restclient_InClusterConfig clientcmd_ClientConfig clientset_NewForConfig
     Discovery_ServerVersion go_Run http_HandleFunc http_ListenAndServe
     bind after perform halt ret calls trips final app].

(** Case analysis on the next answer of the environment. *)
Ltac ask :=
  match goal with
  | |- context [match ?x with _ => _ end] =>
      lazymatch x with
      | context [match _ with _ => _ end] => fail
      | _ => destruct x eqn:?
      end
  end.

Ltac run_go := unfold_go; repeat (ask; unfold_go).

(** *** The monad *)

Lemma after_nil {A : Type} (r : run Event A) : after [] r = r.
Proof. destruct r; reflexivity. Qed.

Lemma calls_after {A : Type} (cs : list (call Event)) (r : run Event A) :
  calls (after cs r) = cs ++ calls r.
Proof. destruct r; reflexivity. Qed.

Lemma final_after {A : Type} (cs : list (call Event)) (r : run Event A) :
  final (after cs r) = final r.
Proof. destruct r; reflexivity. Qed.

Lemma trips_after {A : Type} (cs : list (call Event)) (r : run Event A) :
  trips (after cs r) = trips r.
Proof. destruct r; reflexivity. Qed.

Lemma after_after {A : Type} (cs1 cs2 : list (call Event)) (r : run Event A) :
  after cs1 (after cs2 r) = after (cs1 ++ cs2) r.
Proof. destruct r; cbn. rewrite app_assoc. reflexivity. Qed.

(** The laws of the monad, at every starting point. *)
Lemma bind_ret_l {A B : Type} (a : A) (k : A -> computation Event B) (n : nat) :
  bind (ret a) k n = k a n.
Proof. unfold bind, ret. apply after_nil. Qed.

Lemma bind_ret_r {A : Type} (m : computation Event A) (n : nat) :
  bind m ret n = m n.
Proof.
  unfold bind, ret. destruct (m n) as [cs t [a | msg | code | ]]; cbn;
    rewrite ?app_nil_r; reflexivity.
Qed.

Lemma bind_assoc {A B C : Type} (m : computation Event A)
  (k1 : A -> computation Event B) (k2 : B -> computation Event C) (n : nat) :
  bind (bind m k1) k2 n = bind m (fun a => bind (k1 a) k2) n.
Proof.
  unfold bind. destruct (m n) as [cs t [a | msg | code | ]]; try reflexivity.
  destruct (k1 a t) as [cs1 t1 [b | msg | code | ]]; cbn; try reflexivity.
  symmetry. apply after_after.
Qed.

(** A call made by [bind m k] is made by [m], or by [k] on what [m]
    returned. *)
Lemma elem_of_calls_bind {A B : Type} (m : computation Event A)
  (k : A -> computation Event B) (n : nat) (c : call Event) :
  c ∈ calls (bind m k n) ->
  c ∈ calls (m n) \/
  exists a, final (m n) = Returned a /\ c ∈ calls (k a (trips (m n))).
Proof.
  unfold bind. destruct (m n) as [cs t [a | msg | code | ]]; cbn [calls trips final];
    try (intros; left; assumption).
  rewrite calls_after, elem_of_app. intros [Hc | Hc]; [left | right; exists a]; auto.
Qed.

(** *** reportEvent *)

Lemma header_set_empty (key value : string) :
  <[key := [value]]> (∅ : gmap string (list string)) = {[key := [value]]}.
Proof. apply insert_empty. Qed.

(** [encode] fails exactly when the encoder of the event inside fails. *)
Lemma encode_Ok env de doc :
  encode env de = Ok doc <->
  exists k8sEvent, marshal_Event env (K8sEvent de) = Ok k8sEvent /\ doc = envelope k8sEvent de.
Proof.
  unfold encode, envelope. destruct (marshal_Event env (K8sEvent de)) as [j | e]; split.
  - intros [= <-]. eauto.
  - intros (j' & [= <-] & ->). reflexivity.
  - discriminate.
  - intros (j' & [=] & _).
Qed.

Lemma encode_Err env de err :
  encode env de = Err err <-> marshal_Event env (K8sEvent de) = Err err.
Proof.
  unfold encode. destruct (marshal_Event env (K8sEvent de)); split; congruence.
Qed.

Lemma build_POST env url doc :
  build env "POST" url doc =
  match url_Parse env url with
  | Ok u => Ok {| http.Method := "POST"; http.Url := u; http.Header := ∅; http.Body := doc |}
  | Err err => Err err
  end.
Proof. reflexivity. Qed.

(** Every call of [reportEvent] returns. *)
Lemma reportEvent_returns env url de n :
  final (reportEvent env url de n) = Returned tt.
Proof. run_go; reflexivity. Qed.

(** Every call of [reportEvent] shows in the trace with its envelope. *)
Lemma reported_reportEvent env url de n :
  reported (calls (reportEvent env url de n)) = [de].
Proof. run_go; reflexivity. Qed.

(** The requests [reportEvent] hands to the client, case by case. *)
Lemma requests_reportEvent env url de n :
  requests (calls (reportEvent env url de n)) =
  match encode env de with
  | Err _ => []
  | Ok doc =>
      match url_Parse env url with
      | Err _ => []
      | Ok u => [{| http.Method := "POST"; http.Url := u;
                    http.Header := content_type; http.Body := doc |}]
      end
  end.
Proof.
  unfold_go. destruct (encode env de) as [doc | e]; unfold_go; [ | reflexivity].
  rewrite build_POST. destruct (url_Parse env url) as [u | e]; unfold_go; [ | reflexivity].
  unfold http.Header_Set; cbn [http.Method http.Url http.Header http.Body].
  rewrite header_set_empty. fold content_type.
  repeat (ask; unfold_go); reflexivity.
Qed.

(** C3, as amended: every request [reportEvent] hands to the HTTP client
    is a POST whose only header is
    [Content-Type: application/json;charset=UTF-8] and whose body is the
    JSON document of the envelope, with exactly the fields k8sEvent (the
    encoded event), clusterId (a number), clusterApi (a string) and
    eventType (a string), in this order. Exactly one such request is
    issued when the envelope can be encoded and the address parsed; none
    is issued when the encoding fails or the address does not parse. *)
Theorem reportEvent_posts_the_envelope env url de n :
  (forall r, r ∈ requests (calls (reportEvent env url de n)) ->
     http.Method r = "POST" /\
     http.Header r = content_type /\
     exists k8sEvent,
       marshal_Event env (K8sEvent de) = Ok k8sEvent /\
       http.Body r =
         json.Object [("k8sEvent", k8sEvent);
                      ("clusterId", json.Number (ClusterId de));
                      ("clusterApi", json.String (ClusterApi de));
                      ("eventType", json.String (Type_ de))] /\
       field_names (http.Body r) = ["k8sEvent"; "clusterId"; "clusterApi"; "eventType"]) /\
  (forall k8sEvent u,
     marshal_Event env (K8sEvent de) = Ok k8sEvent ->
     url_Parse env url = Ok u ->
     requests (calls (reportEvent env url de n)) =
       [{| http.Method := "POST"; http.Url := u; http.Header := content_type;
           http.Body := envelope k8sEvent de |}]) /\
  (forall err,
     marshal_Event env (K8sEvent de) = Err err \/ url_Parse env url = Err err ->
     requests (calls (reportEvent env url de n)) = []).
Proof.
  rewrite requests_reportEvent. split; [ | split].
  - intros r. destruct (encode env de) as [doc | e] eqn:Hdoc; [ | inversion 1].
    destruct (url_Parse env url) as [u | e]; [ | inversion 1].
    rewrite list_elem_of_singleton. intros ->. cbn [http.Method http.Header http.Body].
    apply encode_Ok in Hdoc as (j & Hj & ->).
    split; [reflexivity | split; [reflexivity | ]]. exists j. auto.
  - intros j u Hj Hu. rewrite Hu.
    assert (encode env de = Ok (envelope j de)) as -> by (apply encode_Ok; eauto).
    reflexivity.
  - intros err [Hj | Hu].
    + apply encode_Err in Hj. rewrite Hj. reflexivity.
    + rewrite Hu. destruct (encode env de); reflexivity.
Qed.

(** C4: a call of [reportEvent] hands at most one request to the HTTP
    client and makes at most one round trip; it always returns (no panic,
    no exit, and its type has no error to hand back); when the request
    cannot be built it logs and stops before any request is sent; when the
    round trip fails it logs and does nothing more. *)
Theorem reportEvent_attempts_once env url de n :
  final (reportEvent env url de n) = Returned tt /\
  (length (requests (calls (reportEvent env url de n))) <= 1)%nat /\
  (trips (reportEvent env url de n) <= S n)%nat /\
  (forall doc err,
     encode env de = Ok doc -> build env "POST" url doc = Err err ->
     reportEvent env url de n =
       {| calls := [Marshal de; NewRequest "POST" url doc;
                    Println ["create request error: %v"; err]];
          trips := n; final := Returned tt |}) /\
  (forall doc request err,
     encode env de = Ok doc -> build env "POST" url doc = Ok request ->
     round_trip env n
       (http.Header_Set request "Content-Type" "application/json;charset=UTF-8") = Err err ->
     reportEvent env url de n =
       {| calls := [Marshal de; NewRequest "POST" url doc;
                    Do (http.Header_Set request "Content-Type"
                          "application/json;charset=UTF-8");
                    Println ["get response error, %v"; err]];
          trips := S n; final := Returned tt |}).
Proof.
  split; [apply reportEvent_returns | ].
  split; [rewrite requests_reportEvent; repeat ask; cbn; lia | ].
  split; [run_go; lia | ].
  split.
  - intros doc err Hdoc Hreq. unfold_go. rewrite Hdoc. unfold_go. rewrite Hreq. reflexivity.
  - intros doc request err Hdoc Hreq Hnet. unfold_go. rewrite Hdoc. unfold_go.
    rewrite Hreq. unfold_go. rewrite Hnet. reflexivity.
Qed.

(** C5: when [json.Marshal] fails on the envelope, [reportEvent] logs the
    error and returns: no request is built, none is sent, no round trip is
    made. *)
Theorem reportEvent_marshal_failure env url de n err :
  encode env de = Err err ->
  reportEvent env url de n =
    {| calls := [Marshal de; Println ["marshal DomeosEvent error: "; err]];
       trips := n; final := Returned tt |} /\
  constructed (calls (reportEvent env url de n)) = [] /\
  requests (calls (reportEvent env url de n)) = [].
Proof.
  intros Hdoc.
  assert (reportEvent env url de n =
    {| calls := [Marshal de; Println ["marshal DomeosEvent error: "; err]];
       trips := n; final := Returned tt |}) as ->
    by (unfold_go; rewrite Hdoc; reflexivity).
  repeat split.
Qed.

(** *** The handlers *)

(** A handler given a [*v1.Event] that is not nil hands one envelope of its
    own kind to [reportEvent]. *)
Lemma addEvent_Event env fl e n :
  addEvent env fl (ptr_Event (Some e)) n =
  reportEvent env (domeosServer fl)
    {| K8sEvent := e; ClusterId := clusterId fl; ClusterApi := apiserver fl;
       Type_ := "add" |} n.
Proof.
  unfold addEvent; cbn [not_nil assert_ptr_Event negb deref]. unfold bind at 1, ret.
  apply after_nil.
Qed.

Lemma updateEvent_Event env fl old e n :
  updateEvent env fl old (ptr_Event (Some e)) n =
  reportEvent env (domeosServer fl)
    {| K8sEvent := e; ClusterId := clusterId fl; ClusterApi := apiserver fl;
       Type_ := "update" |} n.
Proof.
  unfold updateEvent; cbn [not_nil assert_ptr_Event negb deref]. unfold bind at 1, ret.
  apply after_nil.
Qed.

Lemma deleteEvent_Event env fl e n :
  deleteEvent env fl (ptr_Event (Some e)) n =
  reportEvent env (domeosServer fl)
    {| K8sEvent := e; ClusterId := clusterId fl; ClusterApi := apiserver fl;
       Type_ := "delete" |} n.
Proof.
  unfold deleteEvent; cbn [not_nil assert_ptr_Event negb deref]. unfold bind at 1, ret.
  apply after_nil.
Qed.

(** A typed nil pointer passes the type assertion and panics when it is
    dereferenced, before anything is reported. *)
Lemma addEvent_nil_pointer env fl n :
  addEvent env fl (ptr_Event None) n =
  {| calls := []; trips := n;
     final := Panicked "invalid memory address or nil pointer dereference" |}.
Proof. reflexivity. Qed.

(** Whatever it is given, [addEvent] reports only envelopes of type add. *)
Lemma addEvent_reports_add env fl obj n de :
  de ∈ reported (calls (addEvent env fl obj n)) -> Type_ de = "add".
Proof.
  destruct obj as [ | [e | ] | ty]; [inversion 1 | | inversion 1 | inversion 1].
  rewrite addEvent_Event, reported_reportEvent, list_elem_of_singleton. intros ->. reflexivity.
Qed.

Lemma deleteEvent_reports_delete env fl obj n de :
  de ∈ reported (calls (deleteEvent env fl obj n)) -> Type_ de = "delete".
Proof.
  destruct obj as [ | [e | ] | ty]; [inversion 1 | | inversion 1 | inversion 1].
  rewrite deleteEvent_Event, reported_reportEvent, list_elem_of_singleton. intros ->. reflexivity.
Qed.

(** C6: given the nil interface, or a value whose dynamic type is not
    [*v1.Event], [addEvent] and [deleteEvent] return at once: they make no
    call at all, so [reportEvent] is not called, and they end neither in a
    panic nor in an exit. *)
Theorem handlers_discard_malformed_objects env fl obj n :
  obj = nil_interface \/ is_ptr_Event obj = false ->
  addEvent env fl obj n = {| calls := []; trips := n; final := Returned tt |} /\
  deleteEvent env fl obj n = {| calls := []; trips := n; final := Returned tt |} /\
  reported (calls (addEvent env fl obj n)) = [] /\
  reported (calls (deleteEvent env fl obj n)) = [].
Proof.
  intros [-> | Hty]; [repeat split | ].
  destruct obj as [ | p | ty]; [ | discriminate Hty | ]; repeat split.
Qed.

(** *** The dispatcher *)

(** C2: with the handlers [initializeMetricCollection] registers, an
    Updated notification makes the dispatcher call no handler, and its
    dispatch makes no call at all (no delivery is attempted); an Added
    notification is one call of [addEvent] and a Deleted notification one
    call of [deleteEvent], on the object of the notification. *)
Theorem dispatcher_ignores_updates env fl (kubeClient : Clientset) :
  (forall old cur,
     invoked (h (event_informer kubeClient)) (Updated old cur) = None /\
     forall n, dispatch env fl (h (event_informer kubeClient)) (Updated old cur) n =
               {| calls := []; trips := n; final := Returned tt |}) /\
  (forall obj,
     invoked (h (event_informer kubeClient)) (Added obj) = Some (Invoke1 ec_addEvent obj) /\
     forall n, dispatch env fl (h (event_informer kubeClient)) (Added obj) n =
               addEvent env fl obj n) /\
  (forall obj,
     invoked (h (event_informer kubeClient)) (Deleted obj) = Some (Invoke1 ec_deleteEvent obj) /\
     forall n, dispatch env fl (h (event_informer kubeClient)) (Deleted obj) n =
               deleteEvent env fl obj n).
Proof. repeat split. Qed.

(** What one dispatch reports has type add or delete. *)
Lemma dispatch_reports_add_or_delete env fl n (note : notification Event) de :
  de ∈ reported (calls (dispatch env fl registered note n)) ->
  Type_ de = "add" \/ Type_ de = "delete".
Proof.
  destruct note as [obj | old cur | obj]; cbn [dispatch invoked registered AddFunc
    UpdateFunc DeleteFunc option_map invoke].
  - intros H. left. eapply addEvent_reports_add, H.
  - cbn. inversion 1.
  - intros H. right. eapply deleteEvent_reports_delete, H.
Qed.

Lemma elem_of_reported (cs : list (call Event)) de :
  de ∈ reported cs <-> Marshal de ∈ cs.
Proof.
  unfold reported. rewrite list_elem_of_omap. split.
  - intros (c & Hc & Hde). destruct c; try discriminate. injection Hde as ->. exact Hc.
  - intros Hc. exists (Marshal de). auto.
Qed.

Lemma deliver_reports_add_or_delete env fl ns n de :
  de ∈ reported (calls (deliver env fl registered ns n)) ->
  Type_ de = "add" \/ Type_ de = "delete".
Proof.
  revert n. induction ns as [ | note ns IH]; intros n; cbn [deliver].
  - cbn. inversion 1.
  - rewrite elem_of_reported. intros Hc.
    apply elem_of_calls_bind in Hc as [Hc | (a & _ & Hc)].
    + apply (dispatch_reports_add_or_delete env fl n note). apply elem_of_reported, Hc.
    + apply (IH (trips (dispatch env fl registered note n))). apply elem_of_reported, Hc.
Qed.

(** [main] itself hands nothing to [reportEvent]: envelopes come from the
    informer's goroutine alone. *)
Lemma reported_main env args n : reported (calls (main env args n)) = [].
Proof. unfold_main. repeat (ask; unfold_main); reflexivity. Qed.

(** C10: the informer is built with no [UpdateFunc]; whatever
    notifications it delivers, every envelope handed to [reportEvent] has
    eventType add or delete, and [main] itself hands over none; and
    [updateEvent] is there all the same: called on an event it would
    report an envelope of type update. *)
Theorem update_is_never_delivered env fl (kubeClient : Clientset) :
  UpdateFunc (h (event_informer kubeClient)) = None /\
  (forall ns n de,
     de ∈ reported (calls (deliver env fl (h (event_informer kubeClient)) ns n)) ->
     Type_ de = "add" \/ Type_ de = "delete") /\
  (forall args n, reported (calls (main env args n)) = []) /\
  (forall old e n,
     reported (calls (updateEvent env fl old (ptr_Event (Some e)) n)) =
       [{| K8sEvent := e; ClusterId := clusterId fl; ClusterApi := apiserver fl;
           Type_ := "update" |}]).
Proof.
  split; [reflexivity | split; [ | split]].
  - intros ns n de. apply deliver_reports_add_or_delete.
  - intros args n. apply reported_main.
  - intros old e n. rewrite updateEvent_Event. apply reported_reportEvent.
Qed.

(** *** The status of the response *)

(** C7: two runs of [reportEvent] in worlds whose networks differ at most
    in the status of the responses they give are the same run: the same
    calls in the same order (the log lines among them), the same number of
    round trips, and both return. *)
Theorem status_is_not_acted_upon env
  (net1 net2 : nat -> http.Request -> result http.Response) url de n :
  (forall k r, same_apart_from_status (net1 k r) (net2 k r)) ->
  reportEvent (with_network env net1) url de n =
    reportEvent (with_network env net2) url de n /\
  final (reportEvent (with_network env net1) url de n) = Returned tt /\
  final (reportEvent (with_network env net2) url de n) = Returned tt.
Proof.
  intros Hnet. split; [ | split; apply reportEvent_returns].
  unfold_go. unfold encode, with_network; cbn [marshal_Event].
  destruct (marshal_Event env (K8sEvent de)) as [j | e]; unfold_go; [ | reflexivity].
  rewrite !build_POST; cbn [url_Parse round_trip].
  destruct (url_Parse env url) as [u | e]; unfold_go; [ | reflexivity].
  match goal with
  | |- context [net1 n ?r] =>
      specialize (Hnet n r); destruct (net1 n r) as [r1 | e1], (net2 n r) as [r2 | e2]
  end; cbn in Hnet; try contradiction; unfold_go.
  - rewrite Hnet. repeat (ask; unfold_go); reflexivity.
  - rewrite Hnet. reflexivity.
Qed.

(** *** Startup *)

(** The run of [main] up to the check of line 79, when the command line
    parses. *)
Lemma main_missing_apiserver env args n fl :
  parse env args = Ok fl -> apiserver fl = "" -> inCluster fl = false ->
  main env args n =
    if help fl then {| calls := [Parse args; Usage]; trips := n; final := Exited 0 |}
    else {| calls := [Parse args; Fatal [apiserver_not_set]]; trips := n;
            final := Exited 1 |}.
Proof.
  intros Hparse Hapi Hin. unfold main. unfold_go. rewrite Hparse.
  destruct (help fl); unfold_go; [reflexivity | ].
  rewrite Hapi, Hin. reflexivity.
Qed.

(** C8, as amended: when the parsed flags leave the apiserver empty and
    in-cluster false, [main] ends the process before the cluster is touched
    (no configuration is loaded, no client built, no informer started) and
    before the listener is set up. Unless help was asked for, it does so
    with the diagnostic of line 80 and exit status 1; when help was asked
    for, the usage text is printed and the exit status is 0. *)
Theorem missing_apiserver_stops_startup env args n fl :
  parse env args = Ok fl -> apiserver fl = "" -> inCluster fl = false ->
  (forall c, c ∈ calls (main env args n) ->
     touches_cluster c = false /\ steady_state c = false) /\
  (help fl = false ->
     fatal_diagnostic (main env args n) /\
     main env args n =
       {| calls := [Parse args; Fatal [apiserver_not_set]]; trips := n;
          final := Exited 1 |}) /\
  (help fl = true ->
     main env args n =
       {| calls := [Parse args; Usage]; trips := n; final := Exited 0 |}).
Proof.
  intros Hparse Hapi Hin. rewrite (main_missing_apiserver env args n fl Hparse Hapi Hin).
  split; [ | split].
  - intros c. destruct (help fl); cbn [calls]; rewrite !elem_of_cons, elem_of_nil;
      intros [-> | [-> | []]]; split; reflexivity.
  - intros ->. split; [ | reflexivity]. split; [ | reflexivity].
    exists [apiserver_not_set]. reflexivity.
  - intros ->. reflexivity.
Qed.

(** Every informer [main] starts is the one [initializeMetricCollection]
    builds. *)
Lemma started_main env args n inf :
  inf ∈ started (calls (main env args n)) -> exists kubeClient, inf = event_informer kubeClient.
Proof.
  unfold_main. repeat (ask; unfold_main); cbn [started omap list_omap];
    rewrite ?elem_of_cons, ?elem_of_nil; intros H; try contradiction;
    destruct H as [-> | []]; eauto.
Qed.

(** C9: [initializeMetricCollection] starts one informer, built with a
    resync period of 5 minutes (300000000000 ns); the period is a constant
    of the program, so every informer a run of [main] starts has it,
    whatever the cluster and the network answer. *)
Theorem informer_resyncs_every_five_minutes env :
  (forall (kubeClient : Clientset) n,
     initializeMetricCollection (Event := Event) kubeClient n =
       {| calls := [GoRun (event_informer kubeClient)]; trips := n;
          final := Returned tt |} /\
     resync (event_informer kubeClient) = 5 * time.Minute) /\
  time.Minute = 60 * 1000000000 /\
  (forall args n inf,
     inf ∈ started (calls (main env args n)) -> resync inf = 300000000000).
Proof.
  split; [ | split].
  - intros kubeClient n. split; reflexivity.
  - reflexivity.
  - intros args n inf Hinf. apply started_main in Hinf as [kubeClient ->]. reflexivity.
Qed.

End Properties.

(** ** The theorems at work in the sample world *)

(** A delivery that succeeds: the envelope is encoded, the request built
    and sent, the body of the response read and closed. *)
Example reportEvent_delivers :
  reportEvent Sample.world Sample.destination Sample.event 0%nat =
    {| calls := [Marshal Sample.event;
                 NewRequest "POST" Sample.destination (http.Body Sample.request);
                 Do Sample.request;
                 ReadAll {| http.contents := Ok "" |};
                 Close {| http.contents := Ok "" |}];
       trips := 1; final := Returned tt |}.
Proof. reflexivity. Qed.

(** A run of [main] outside the cluster with no apiserver: the check of
    line 79 ends it. *)
Example main_outside_the_cluster :
  main Sample.world Sample.outside_args 0%nat =
    {| calls := [Parse Sample.outside_args; Fatal [apiserver_not_set]]; trips := 0;
       final := Exited 1 |}.
Proof. reflexivity. Qed.

Lemma reportEvent_posts_the_envelope_witness :
  requests (calls (reportEvent Sample.world Sample.destination Sample.event 0%nat)) =
    [Sample.request].
Proof.
  apply (proj1 (proj2 (reportEvent_posts_the_envelope Sample.world Sample.destination
                         Sample.event 0%nat))); reflexivity.
Defined.

(** C3, as the claim states it, fails on an address that does not parse:
    [http.NewRequest] fails, [reportEvent] logs and returns, and no
    request is issued for the envelope. *)
Lemma no_post_to_a_bare_address :
  requests (calls (reportEvent Sample.world Sample.bare_address Sample.event 0%nat)) = [] /\
  ~ posts_the_envelope Sample.world Sample.bare_address Sample.event 0%nat.
Proof.
  split; [reflexivity | ]. intros (r & Hr & _). inversion Hr.
Qed.

Lemma reportEvent_attempts_once_witness :
  reportEvent Sample.world Sample.bare_address Sample.event 0%nat =
    {| calls := [Marshal Sample.event;
                 NewRequest "POST" Sample.bare_address (http.Body Sample.request);
                 Println ["create request error: %v";
                          "first path segment in URL cannot contain colon"]];
       trips := 0; final := Returned tt |} /\
  reportEvent (with_network Sample.world Sample.refused)
    Sample.destination Sample.event 3%nat =
    {| calls := [Marshal Sample.event;
                 NewRequest "POST" Sample.destination (http.Body Sample.request);
                 Do Sample.request;
                 Println ["get response error, %v"; "dial tcp: connection refused"]];
       trips := 4; final := Returned tt |}.
Proof.
  split.
  - apply (proj1 (proj2 (proj2 (proj2
      (reportEvent_attempts_once Sample.world Sample.bare_address
         Sample.event 0%nat))))); reflexivity.
  - apply (proj2 (proj2 (proj2 (proj2
      (reportEvent_attempts_once (with_network Sample.world Sample.refused)
         Sample.destination Sample.event 3%nat))))
      (http.Body Sample.request)
      {| http.Method := "POST"; http.Url := http.Url Sample.request;
         http.Header := ∅; http.Body := http.Body Sample.request |});
      reflexivity.
Defined.

Lemma reportEvent_marshal_failure_witness :
  reportEvent (with_encoder Sample.world (fun _ => Err "json: unsupported value"))
    Sample.destination Sample.event 0%nat =
    {| calls := [Marshal Sample.event;
                 Println ["marshal DomeosEvent error: "; "json: unsupported value"]];
       trips := 0; final := Returned tt |}.
Proof.
  apply (reportEvent_marshal_failure
           (with_encoder Sample.world (fun _ => Err "json: unsupported value"))
           Sample.destination Sample.event 0%nat "json: unsupported value").
  reflexivity.
Defined.

Lemma handlers_discard_malformed_objects_witness :
  is_ptr_Event (other (Event := string) "cache.DeletedFinalStateUnknown") = false /\
  deleteEvent Sample.world Sample.flags (other "cache.DeletedFinalStateUnknown") 0%nat =
    {| calls := []; trips := 0; final := Returned tt |} /\
  addEvent Sample.world Sample.flags nil_interface 0%nat =
    {| calls := []; trips := 0; final := Returned tt |}.
Proof.
  split; [reflexivity | split].
  - apply (handlers_discard_malformed_objects Sample.world Sample.flags
             (other "cache.DeletedFinalStateUnknown") 0%nat).
    right. reflexivity.
  - apply (handlers_discard_malformed_objects Sample.world Sample.flags nil_interface 0%nat).
    left. reflexivity.
Defined.

Lemma status_is_not_acted_upon_witness :
  Sample.answer 200 "200 OK" <> Sample.answer 500 "500 Internal Server Error" /\
  reportEvent (with_network Sample.world (fun _ _ => Sample.answer 200 "200 OK"))
    Sample.destination Sample.event 0%nat =
  reportEvent
    (with_network Sample.world (fun _ _ => Sample.answer 500 "500 Internal Server Error"))
    Sample.destination Sample.event 0%nat.
Proof.
  split; [discriminate | ].
  apply (status_is_not_acted_upon Sample.world
           (fun _ _ => Sample.answer 200 "200 OK")
           (fun _ _ => Sample.answer 500 "500 Internal Server Error")).
  intros k r. reflexivity.
Defined.

Lemma missing_apiserver_stops_startup_witness :
  main Sample.world Sample.outside_args 0%nat =
    {| calls := [Parse Sample.outside_args; Fatal [apiserver_not_set]]; trips := 0;
       final := Exited 1 |}.
Proof.
  apply (missing_apiserver_stops_startup Sample.world Sample.outside_args 0%nat
           (fold_left Sample.set_flag Sample.outside_args default_flags));
    reflexivity.
Defined.

(** C8, as the claim states it, fails on a command line that also asks for
    help: the flags leave the apiserver empty and in-cluster false, and
    [main] prints the usage text and exits with status 0; no diagnostic is
    logged. *)
Lemma help_exits_before_the_apiserver_check :
  main Sample.world Sample.help_args 0%nat =
    {| calls := [Parse Sample.help_args; Usage]; trips := 0; final := Exited 0 |} /\
  ~ missing_apiserver_is_fatal Sample.world Sample.help_args 0%nat.
Proof.
  split; [reflexivity | ]. intros H.
  destruct (H (fold_left Sample.set_flag Sample.help_args default_flags)
              eq_refl eq_refl eq_refl) as [[_ Hexit] _].
  vm_compute in Hexit. discriminate Hexit.
Qed.

Lemma informer_resyncs_every_five_minutes_witness :
  started (calls (main Sample.world Sample.inside_args 0%nat)) =
    [event_informer {| config := Sample.cluster_config |}] /\
  resync (event_informer {| config := Sample.cluster_config |}) = 300000000000.
Proof.
  split; [reflexivity | ].
  apply (proj2 (proj2 (informer_resyncs_every_five_minutes Sample.world))
           Sample.inside_args 0%nat).
  left.
Defined.

Lemma update_is_never_delivered_witness :
  reported (calls (deliver Sample.world Sample.flags registered
                     [Added (ptr_Event (Some "Pulled image"));
                      Updated (ptr_Event (Some "Pulled image"))
                        (ptr_Event (Some "Pulled image (x2)"));
                      Deleted (ptr_Event (Some "Pulled image (x2)"))] 0%nat)) =
    [{| K8sEvent := "Pulled image"; ClusterId := 7;
        ClusterApi := "https://10.0.0.1:443"; Type_ := "add" |};
     {| K8sEvent := "Pulled image (x2)"; ClusterId := 7;
        ClusterApi := "https://10.0.0.1:443"; Type_ := "delete" |}] /\
  (Type_ {| K8sEvent := "Pulled image (x2)"; ClusterId := 7;
            ClusterApi := "https://10.0.0.1:443"; Type_ := "delete" |} = "add" \/
   Type_ {| K8sEvent := "Pulled image (x2)"; ClusterId := 7;
            ClusterApi := "https://10.0.0.1:443"; Type_ := "delete" |} = "delete").
Proof.
  split; [reflexivity | ].
  apply (proj1 (proj2 (update_is_never_delivered Sample.world Sample.flags
                         {| config := Sample.cluster_config |}))
           [Added (ptr_Event (Some "Pulled image"));
            Updated (ptr_Event (Some "Pulled image"))
              (ptr_Event (Some "Pulled image (x2)"));
            Deleted (ptr_Event (Some "Pulled image (x2)"))] 0%nat).
  right. left.
Defined.

(** ** Further properties of main.go *)
Section Further.

Context {Event : Type}.
Implicit Types (env : Env Event) (fl : Flags) (de : DomeosEvent Event).
Implicit Types (obj old cur : object Event).

(** One function of main.go, unfolded to the calls it makes. *)
Ltac steps :=
  cbv beta iota zeta delta
    [reportEvent addEvent updateEvent deleteEvent deref not_nil assert_ptr_Event negb
     json_Marshal http_NewRequest Client_Do ioutil_ReadAll Body_Close
     log_Println log_Printf log_Fatal os_Exit flags_Parse flags_Usage proc_StartReaper
     restclient_InClusterConfig clientcmd_ClientConfig clientset_NewForConfig
     Discovery_ServerVersion go_Run http_HandleFunc http_ListenAndServe
     bind after perform halt ret calls trips final app].

(** The next answer of the environment, by cases. *)
Ltac answer :=
  match goal with
  | |- context [match ?x with _ => _ end] =>
      lazymatch x with
      | context [match _ with _ => _ end] => fail
      | _ => destruct x eqn:?
      end
  end.

Ltac all_runs := steps; repeat (answer; steps).

(** Membership in a list that is written out. *)
Ltac elems :=
  repeat match goal with
         | H : _ ∈ _ :: _ |- _ => apply elem_of_cons in H as [H | H]
         | H : _ ∈ [] |- _ => apply elem_of_nil in H; contradiction
         end.

(** *** reportEvent: the response body and the log *)

(** X1: every response body [reportEvent] reads it also closes, once and
    after the read; when a response arrives its body is read and closed,
    the close being the last call of the function, and when the round trip
    fails nothing is read or closed. *)
Theorem reportEvent_closes_what_it_reads env url de n :
  bodies_closed (calls (reportEvent env url de n)) =
    bodies_read (calls (reportEvent env url de n)) /\
  (forall doc request resp,
     encode env de = Ok doc -> build env "POST" url doc = Ok request ->
     round_trip env n
       (http.Header_Set request "Content-Type" "application/json;charset=UTF-8") = Ok resp ->
     bodies_read (calls (reportEvent env url de n)) = [http.RespBody resp] /\
     last (calls (reportEvent env url de n)) = Some (Close (http.RespBody resp))) /\
  (requests (calls (reportEvent env url de n)) = [] ->
     bodies_read (calls (reportEvent env url de n)) = []) /\
  (forall doc request err,
     encode env de = Ok doc -> build env "POST" url doc = Ok request ->
     round_trip env n
       (http.Header_Set request "Content-Type" "application/json;charset=UTF-8") = Err err ->
     bodies_read (calls (reportEvent env url de n)) = []).
Proof.
  split; [all_runs; reflexivity | split; [ | split]].
  - intros doc request resp Hdoc Hreq Hnet. steps. rewrite Hdoc. steps. rewrite Hreq. steps.
    rewrite Hnet. steps. destruct (http.contents (http.RespBody resp)); split; reflexivity.
  - all_runs; try reflexivity; discriminate.
  - intros doc request err Hdoc Hreq Hnet. steps. rewrite Hdoc. steps. rewrite Hreq. steps.
    rewrite Hnet. reflexivity.
Qed.

(** X2: [reportEvent] writes at most one line to the log, and it writes
    none exactly when the envelope was encoded, the request built, a
    response received and its body read; the status of the response plays
    no part, so an error status leaves no line in the log. *)
Theorem reportEvent_logs_failures_only env url de n :
  (length (logged (calls (reportEvent env url de n))) <= 1)%nat /\
  (logged (calls (reportEvent env url de n)) = [] <->
   exists doc request resp body,
     encode env de = Ok doc /\ build env "POST" url doc = Ok request /\
     round_trip env n
       (http.Header_Set request "Content-Type" "application/json;charset=UTF-8") = Ok resp /\
     http.contents (http.RespBody resp) = Ok body).
Proof.
  split; [all_runs; cbn; lia | ].
  steps. destruct (encode env de) as [doc | e] eqn:Hdoc; steps.
  2:{ split; [discriminate | intros (? & ? & ? & ? & [=] & _)]. }
  destruct (build env "POST" url doc) as [request | e] eqn:Hreq; steps.
  2:{ split; [discriminate | ]. intros (d & r & ? & ? & [= <-] & Hr & _). congruence. }
  destruct (round_trip env n
              (http.Header_Set request "Content-Type" "application/json;charset=UTF-8"))
    as [resp | e] eqn:Hnet; steps.
  2:{ split; [discriminate | ].
      intros (d & r & ? & ? & [= <-] & Hr & Hn & _). congruence. }
  destruct (http.contents (http.RespBody resp)) as [body | e] eqn:Hbody; steps.
  - split; [ | reflexivity]. intros _. exists doc, request, resp, body. auto.
  - split; [discriminate | ].
    intros (d & r & rs & b & [= <-] & Hr & Hn & Hb). congruence.
Qed.

(** X3: when the body of the response cannot be read, [reportEvent] logs
    the error together with the address, closes the body all the same and
    returns. *)
Theorem reportEvent_read_failure env url de n doc request resp err :
  encode env de = Ok doc -> build env "POST" url doc = Ok request ->
  round_trip env n
    (http.Header_Set request "Content-Type" "application/json;charset=UTF-8") = Ok resp ->
  http.contents (http.RespBody resp) = Err err ->
  reportEvent env url de n =
    {| calls := [Marshal de; NewRequest "POST" url doc;
                 Do (http.Header_Set request "Content-Type"
                       "application/json;charset=UTF-8");
                 ReadAll (http.RespBody resp);
                 Println ["http.Do failed,[err=%s][url=%s]"; err; url];
                 Close (http.RespBody resp)];
       trips := S n; final := Returned tt |}.
Proof.
  intros Hdoc Hreq Hnet Hbody. steps. rewrite Hdoc. steps. rewrite Hreq. steps.
  rewrite Hnet. steps. rewrite Hbody. reflexivity.
Qed.

(** Every request [reportEvent] builds is a POST to the address it was
    given. *)
Lemma targets_reportEvent env url de n t :
  t ∈ targets (calls (reportEvent env url de n)) -> t = ("POST", url).
Proof. all_runs; cbn; intros H; elems; assumption. Qed.

(** *** The handlers *)

(** X4: a handler hands an envelope to [reportEvent] exactly when its
    object is a [*v1.Event] that is not nil, and then exactly one: the
    event itself with the cluster id and the apiserver address of the
    flags, typed add by [addEvent], delete by [deleteEvent] and update by
    [updateEvent], which takes the event from [cur] and never looks at
    [old]. *)
Theorem handlers_report_their_event env fl obj old n :
  reported (calls (addEvent env fl obj n)) = envelope_of fl "add" obj /\
  reported (calls (deleteEvent env fl obj n)) = envelope_of fl "delete" obj /\
  reported (calls (updateEvent env fl old obj n)) = envelope_of fl "update" obj.
Proof.
  destruct obj as [ | [e | ] | ty]; try (repeat split; reflexivity).
  rewrite addEvent_Event, deleteEvent_Event, updateEvent_Event, !reported_reportEvent.
  repeat split.
Qed.

(** X5: every request a handler builds is a POST to the address of the
    [--domeosServer] flag, and every request it sends goes to what that
    address parses to. *)
Theorem handlers_post_to_domeosServer env fl obj old n :
  (forall t,
     t ∈ targets (calls (addEvent env fl obj n)) \/
     t ∈ targets (calls (deleteEvent env fl obj n)) \/
     t ∈ targets (calls (updateEvent env fl old obj n)) ->
     t = ("POST", domeosServer fl)) /\
  (forall r,
     r ∈ requests (calls (addEvent env fl obj n)) \/
     r ∈ requests (calls (deleteEvent env fl obj n)) \/
     r ∈ requests (calls (updateEvent env fl old obj n)) ->
     url_Parse env (domeosServer fl) = Ok (http.Url r)).
Proof.
  destruct obj as [ | [e | ] | ty];
    try solve [split; intros x [H | [H | H]]; cbn in H; elems].
  rewrite addEvent_Event, deleteEvent_Event, updateEvent_Event. split.
  - intros t [H | [H | H]]; eapply targets_reportEvent, H.
  - intros r [H | [H | H]]; rewrite requests_reportEvent in H;
      destruct (encode env _); try (elems; fail);
      destruct (url_Parse env (domeosServer fl)); elems; subst r; reflexivity.
Qed.


(** *** createKubeClient *)

Ltac client_runs :=
  unfold createKubeClient; steps; repeat (answer; steps).

(** X7: [createKubeClient] loads exactly one configuration, the in-cluster
    one when [--in-cluster] is set and the kubeconfig one when it is not. *)
Theorem createKubeClient_loads_one_configuration env fl n :
  loaders (calls (createKubeClient env fl n)) = [inCluster fl].
Proof. client_runs; reflexivity. Qed.

(** X8: inside the cluster the client is built from the in-cluster
    configuration, with the host replaced by [--apiserver] when that flag
    is not empty and kept otherwise; the bearer token and the TLS settings
    are the in-cluster ones, whatever [--token] says. *)
Theorem createKubeClient_in_cluster env fl n cfg :
  inCluster fl = true -> in_cluster env = Ok cfg ->
  exists c,
    configured (calls (createKubeClient env fl n)) = [c] /\
    rest.Host c = (if String.eqb (apiserver fl) "" then rest.Host cfg else apiserver fl) /\
    rest.BearerToken c = rest.BearerToken cfg /\
    rest.TLS c = rest.TLS cfg.
Proof.
  intros Hin Hcfg. unfold createKubeClient. steps. rewrite Hin, Hcfg. steps.
  destruct (String.eqb (apiserver fl) ""); steps;
    repeat (answer; steps); eexists; repeat split.
Qed.

(** X9: outside the cluster the client is built from the kubeconfig
    configuration with the host replaced by [--apiserver], empty or not;
    a non-empty [--token] replaces the bearer token, switches the
    verification of the server certificate off and drops the other TLS
    settings, and an empty one leaves token and TLS settings as loaded. *)
Theorem createKubeClient_outside_the_cluster env fl n cfg :
  inCluster fl = false -> client_config env = Ok cfg ->
  exists c,
    configured (calls (createKubeClient env fl n)) = [c] /\
    rest.Host c = apiserver fl /\
    rest.BearerToken c =
      (if String.eqb (token fl) "" then rest.BearerToken cfg else token fl) /\
    rest.TLS c =
      (if String.eqb (token fl) "" then rest.TLS cfg
       else {| rest.Insecure := true; rest.CAFile := "" |}).
Proof.
  intros Hin Hcfg. unfold createKubeClient. steps. rewrite Hin, Hcfg. steps.
  destruct (String.eqb (token fl) ""); steps;
    repeat (answer; steps); eexists; repeat split.
Qed.

(** X10: [createKubeClient] never ends the process itself, and the client
    it returns is the one [clientset.NewForConfig] built and the only one
    whose server version it asked for, with success. *)
Theorem createKubeClient_returns_a_tested_client env fl n :
  (exists made, final (createKubeClient env fl n) = Returned made) /\
  (forall c,
     final (createKubeClient env fl n) = Returned (Ok c) ->
     tested (calls (createKubeClient env fl n)) = [c] /\
     (exists v, server_version env c = Ok v) /\
     (exists cfg,
        configured (calls (createKubeClient env fl n)) = [cfg] /\
        new_client env cfg = Ok c)).
Proof.
  split.
  - client_runs; eexists; reflexivity.
  - intros c. client_runs; intros [= <-]; repeat split; eauto.
Qed.

(** X11: an error of [createKubeClient] is the error of the configuration
    loader or of [clientset.NewForConfig], handed on as it is and before
    any server is contacted, or the error of the version request behind
    the words "ERROR communicating with apiserver: ". *)
Theorem createKubeClient_errors env fl n err :
  final (createKubeClient env fl n) = Returned (Err err) ->
  (tested (calls (createKubeClient env fl n)) = [] /\
   configured (calls (createKubeClient env fl n)) = [] /\
   (if inCluster fl then in_cluster env else client_config env) = Err err) \/
  (tested (calls (createKubeClient env fl n)) = [] /\
   exists cfg,
     configured (calls (createKubeClient env fl n)) = [cfg] /\
     new_client env cfg = Err err) \/
  (exists c e,
     tested (calls (createKubeClient env fl n)) = [c] /\
     server_version env c = Err e /\
     err = "ERROR communicating with apiserver: " +:+ e).
Proof.
  client_runs; intros [= <-];
    first [ left; repeat split; assumption
          | right; left; split; [reflexivity | eexists; split; [reflexivity | assumption]]
          | right; right; do 2 eexists; repeat split; eassumption ].
Qed.

(** Inside the cluster [createKubeClient] makes the same run for every
    value of [--token]. *)
Lemma createKubeClient_in_cluster_ignores_token env fl n t :
  inCluster fl = true ->
  createKubeClient env (with_token fl t) n = createKubeClient env fl n.
Proof.
  intros Hin. unfold createKubeClient, with_token;
    cbn [inCluster apiserver token kubeconfig help port clusterId domeosServer].
  rewrite Hin. reflexivity.
Qed.

(** [createKubeClient] starts no informer and no listener. *)
Lemma createKubeClient_stays_out_of_steady_state env fl n :
  started (calls (createKubeClient env fl n)) = [] /\
  listening (calls (createKubeClient env fl n)) = [].
Proof. client_runs; split; reflexivity. Qed.

(** *** main *)

Ltac main_runs :=
  unfold main, createKubeClient, initializeMetricCollection, metricsServer;
  steps; repeat (answer; steps).

(** The run of [main] once the flags have passed the checks of lines 74
    and 79. *)
Lemma main_past_the_checks env args n fl :
  parse env args = Ok fl -> help fl = false -> apiserver_known fl = true ->
  main env args n =
    after [Parse args; Println ["apiServer set to: %v"; apiserver fl];
           Println ["token set to: %v"; token fl]; StartReaper]
      (bind (createKubeClient env fl) (finish env fl) n).
Proof.
  intros Hparse Hhelp Hcheck. unfold apiserver_known in Hcheck.
  unfold main, finish, initializeMetricCollection. steps. rewrite Hparse. steps.
  rewrite Hhelp. steps.
  destruct (String.eqb (apiserver fl) ""), (inCluster fl); try discriminate Hcheck;
    cbn [andb]; steps;
    destruct (createKubeClient env fl n) as [cs t [[c | e] | msg | code | ]]; steps;
    try reflexivity; destruct (metricsServer env fl t); reflexivity.
Qed.


(** X13: the informer [main] starts watches through the client that
    [clientset.NewForConfig] built, and it is started only after the
    version request on that very client has succeeded. *)
Theorem informer_watches_through_the_tested_client env args n inf :
  inf ∈ started (calls (main env args n)) ->
  exists c v,
    inf = event_informer c /\
    client (lw inf) = c /\
    tested (until_started (calls (main env args n))) = [c] /\
    server_version env c = Ok v /\
    exists cfg, configured (until_started (calls (main env args n))) = [cfg] /\
                new_client env cfg = Ok c.
Proof.
  main_runs; cbn [started omap list_omap]; intros H; elems; subst inf;
    do 2 eexists; repeat split; eauto.
Qed.

(** X14: when [main] reaches the listener, the informer is running
    already, the pattern "/" is registered, and the address is ":" followed
    by the port of the flags; from there on [main] stays in the listener,
    or, if the listener gives up with an error, logs that error and ends
    the process with status 1. *)
Theorem main_listens_on_the_port env args n addr :
  addr ∈ listening (calls (main env args n)) ->
  exists fl c,
    parse env args = Ok fl /\
    addr = ":" +:+ pretty (port fl) /\
    started (calls (main env args n)) = [event_informer c] /\
    handled (calls (main env args n)) = ["/"] /\
    listening (calls (main env args n)) = [addr] /\
    match serve env addr with
    | None => final (main env args n) = Blocked
    | Some err =>
        final (main env args n) = Exited 1 /\
        last (calls (main env args n)) = Some (Fatal [err])
    end.
Proof.
  main_runs; cbn [listening omap list_omap]; intros H; elems; subst addr;
    do 2 eexists; (split; [reflexivity | ]); (split; [reflexivity | ]);
    repeat (split; [reflexivity | ]); simplify_eq; try split; reflexivity.
Qed.

(** X15: when the client cannot be created, [main] logs "Failed to create
    client: " with the error and ends the process with status 1; no
    informer is started and no listener set up. *)
Theorem main_client_failure_is_fatal env args n fl err :
  parse env args = Ok fl -> help fl = false -> apiserver_known fl = true ->
  final (createKubeClient env fl n) = Returned (Err err) ->
  final (main env args n) = Exited 1 /\
  last (calls (main env args n)) = Some (Fatal ["Failed to create client: "; err]) /\
  started (calls (main env args n)) = [] /\
  listening (calls (main env args n)) = [].
Proof.
  intros Hparse Hhelp Hcheck Hmade.
  rewrite (main_past_the_checks env args n fl Hparse Hhelp Hcheck).
  pose proof (createKubeClient_stays_out_of_steady_state env fl n) as [Hst Hli].
  unfold bind, finish. destruct (createKubeClient env fl n) as [cs t o].
  cbn [final calls] in Hmade, Hst, Hli. subst o. unfold log_Fatal, halt, after.
  cbn [calls final]. repeat split.
  - rewrite app_assoc. apply last_snoc.
  - unfold started in *. rewrite !omap_app, Hst. reflexivity.
  - unfold listening in *. rewrite !omap_app, Hli. reflexivity.
Qed.

(** X16: every run of [main] that gets past the flag checks writes the
    value of [--token] to the log, before it creates the client. *)
Theorem main_logs_the_token env args n fl :
  parse env args = Ok fl -> help fl = false -> apiserver_known fl = true ->
  ["token set to: %v"; token fl] ∈ logged (until_started (calls (main env args n))) /\
  exists rest,
    calls (main env args n) =
      [Parse args; Println ["apiServer set to: %v"; apiserver fl];
       Println ["token set to: %v"; token fl]; StartReaper;
       Println ["Creating client"]] ++ rest.
Proof.
  intros Hparse Hhelp Hcheck.
  rewrite (main_past_the_checks env args n fl Hparse Hhelp Hcheck).
  assert (exists cs, calls (bind (createKubeClient env fl) (finish env fl) n) =
                     Println ["Creating client"] :: cs) as [cs Hcs].
  { unfold finish, initializeMetricCollection, metricsServer. client_runs;
      eexists; reflexivity. }
  rewrite calls_after, Hcs. split; [ | eexists; reflexivity].
  cbn. right; left.
Qed.

(** X17: the value of [--kubeconfig] changes nothing: two parsers whose
    results differ at most in the kubeconfig path give the same run of
    [main], and the handlers make the same run for every path. *)
Theorem kubeconfig_is_never_read env (p1 p2 : list string -> result Flags) args n :
  (forall a, same_apart_from_kubeconfig (p1 a) (p2 a)) ->
  main (with_parser env p1) args n = main (with_parser env p2) args n /\
  (forall fl path obj old k,
     addEvent env (with_kubeconfig fl path) obj k = addEvent env fl obj k /\
     deleteEvent env (with_kubeconfig fl path) obj k = deleteEvent env fl obj k /\
     updateEvent env (with_kubeconfig fl path) old obj k = updateEvent env fl old obj k).
Proof.
  intros Hsame. split; [ | intros; repeat split].
  specialize (Hsame args). unfold main. steps. cbn [with_parser parse].
  destruct (p1 args) as [f1 | e1], (p2 args) as [f2 | e2]; cbn in Hsame;
    try contradiction; [ | subst; reflexivity].
  destruct f1, f2. cbn in Hsame. destruct Hsame as (-> & -> & -> & -> & -> & -> & ->).
  reflexivity.
Qed.

End Further.

(** ** The further properties at work *)

(** A delivery answered with status 500 leaves no line in the log. *)
Example status_500_is_not_logged :
  logged (calls (reportEvent (with_network Sample.world Scenario.failing_server)
                   Sample.destination Sample.event 0%nat)) = [].
Proof. reflexivity. Qed.

Lemma reportEvent_read_failure_witness :
  logged (calls (reportEvent (with_network Sample.world Scenario.cut_short)
                   Sample.destination Sample.event 0%nat)) =
    [["http.Do failed,[err=%s][url=%s]"; "unexpected EOF"; Sample.destination]] /\
  bodies_closed (calls (reportEvent (with_network Sample.world Scenario.cut_short)
                          Sample.destination Sample.event 0%nat)) =
    [{| http.contents := Err "unexpected EOF" |}].
Proof.
  rewrite (reportEvent_read_failure (with_network Sample.world Scenario.cut_short)
             Sample.destination Sample.event 0%nat
             (http.Body Sample.request)
             {| http.Method := "POST"; http.Url := http.Url Sample.request;
                http.Header := ∅; http.Body := http.Body Sample.request |}
             {| http.StatusCode := 200; http.Status := "200 OK";
                http.RespBody := {| http.contents := Err "unexpected EOF" |} |}
             "unexpected EOF" eq_refl eq_refl eq_refl eq_refl).
  split; reflexivity.
Defined.

Lemma createKubeClient_in_cluster_witness :
  exists c,
    configured (calls (createKubeClient Sample.world Sample.flags 0%nat)) = [c] /\
    rest.Host c = "https://10.0.0.1:443" /\
    rest.BearerToken c = "sa-token" /\
    rest.TLS c = {| rest.Insecure := false; rest.CAFile := "ca.crt" |}.
Proof.
  exact (createKubeClient_in_cluster Sample.world Sample.flags 0%nat
           Sample.cluster_config eq_refl eq_refl).
Defined.

Lemma createKubeClient_outside_the_cluster_witness :
  exists c,
    configured (calls (createKubeClient Scenario.outside_world Scenario.outside_flags
                         0%nat)) = [c] /\
    rest.Host c = "https://10.0.0.1:6443" /\
    rest.BearerToken c = "secret" /\
    rest.TLS c = {| rest.Insecure := true; rest.CAFile := "" |}.
Proof.
  exact (createKubeClient_outside_the_cluster Scenario.outside_world
           Scenario.outside_flags 0%nat Scenario.kubeconfig_config eq_refl eq_refl).
Defined.

Lemma createKubeClient_errors_witness :
  exists c e,
    tested (calls (createKubeClient (with_version Sample.world Scenario.unreachable)
                     Sample.flags 0%nat)) = [c] /\
    Scenario.unreachable c = Err e /\
    "ERROR communicating with apiserver: dial tcp 10.0.0.1:443: i/o timeout" =
      "ERROR communicating with apiserver: " +:+ e.
Proof.
  destruct (createKubeClient_errors (with_version Sample.world Scenario.unreachable)
              Sample.flags 0%nat
              "ERROR communicating with apiserver: dial tcp 10.0.0.1:443: i/o timeout"
              eq_refl) as [(H & _) | [(H & _) | H]].
  - discriminate H.
  - discriminate H.
  - exact H.
Defined.

Lemma informer_watches_through_the_tested_client_witness :
  exists c v,
    event_informer {| config := Sample.cluster_config |} = event_informer c /\
    client (lw (event_informer {| config := Sample.cluster_config |})) = c /\
    tested (until_started (calls (main Sample.world Sample.inside_args 0%nat))) = [c] /\
    server_version Sample.world c = Ok v /\
    exists cfg,
      configured (until_started (calls (main Sample.world Sample.inside_args 0%nat))) =
        [cfg] /\
      new_client Sample.world cfg = Ok c.
Proof.
  apply (informer_watches_through_the_tested_client Sample.world Sample.inside_args
           0%nat (event_informer {| config := Sample.cluster_config |})).
  left.
Defined.

Lemma main_listens_on_the_port_witness :
  exists fl c,
    parse Sample.world Sample.inside_args = Ok fl /\
    ":80" = ":" +:+ pretty (port fl) /\
    started (calls (main Sample.world Sample.inside_args 0%nat)) = [event_informer c] /\
    handled (calls (main Sample.world Sample.inside_args 0%nat)) = ["/"] /\
    listening (calls (main Sample.world Sample.inside_args 0%nat)) = [":80"] /\
    match serve Sample.world ":80" with
    | None => final (main Sample.world Sample.inside_args 0%nat) = Blocked
    | Some err =>
        final (main Sample.world Sample.inside_args 0%nat) = Exited 1 /\
        last (calls (main Sample.world Sample.inside_args 0%nat)) = Some (Fatal [err])
    end.
Proof.
  apply (main_listens_on_the_port Sample.world Sample.inside_args 0%nat ":80").
  vm_compute. left.
Defined.

Lemma main_client_failure_is_fatal_witness :
  final (main (with_version Sample.world Scenario.unreachable) Sample.inside_args 0%nat) =
    Exited 1 /\
  last (calls (main (with_version Sample.world Scenario.unreachable)
                 Sample.inside_args 0%nat)) =
    Some (Fatal ["Failed to create client: ";
                 "ERROR communicating with apiserver: dial tcp 10.0.0.1:443: i/o timeout"]) /\
  started (calls (main (with_version Sample.world Scenario.unreachable)
                    Sample.inside_args 0%nat)) = [] /\
  listening (calls (main (with_version Sample.world Scenario.unreachable)
                      Sample.inside_args 0%nat)) = [].
Proof.
  apply (main_client_failure_is_fatal (with_version Sample.world Scenario.unreachable)
           Sample.inside_args 0%nat
           (fold_left Sample.set_flag Sample.inside_args default_flags));
    reflexivity.
Defined.

Lemma main_logs_the_token_witness :
  ["token set to: %v"; "secret"] ∈
    logged (until_started (calls (main Scenario.outside_world Sample.inside_args 0%nat))).
Proof.
  apply (main_logs_the_token Scenario.outside_world Sample.inside_args 0%nat
           Scenario.outside_flags); reflexivity.
Defined.

Lemma kubeconfig_is_never_read_witness :
  with_kubeconfig Sample.flags "/etc/kube/config" <> Sample.flags /\
  main (with_parser Sample.world Sample.parse_args) Sample.inside_args 0%nat =
    main (with_parser Sample.world Scenario.parse_elsewhere) Sample.inside_args 0%nat.
Proof.
  split; [discriminate | ].
  apply (kubeconfig_is_never_read Sample.world Sample.parse_args Scenario.parse_elsewhere
           Sample.inside_args 0%nat).
  intros a. unfold Scenario.parse_elsewhere, Sample.parse_args. cbn. repeat split.
Defined.
